(** * The RSA-SSA-PKCS1 verify key manager of Tink (C++)

    A shallow embedding of [cc/signature/rsa_ssa_pkcs1_verify_key_manager.cc]:
    the public-key factory whose creation entry points always refuse, the
    two [Validate] overloads and [GetPrimitiveFromKey].

    The file calls helpers that live in other translation units
    ([ValidateVersion], [SubtleUtilBoringSSL::str2bn],
    [ValidateRsaModulusSize], [ValidateSignatureHash],
    [Enums::ProtoToSubtle], [RsaSsaPkcs1VerifyBoringSsl::New]) and uses
    constants of its header ([kKeyType], [kVersion]).  The manager is
    embedded over an arbitrary implementation of them (two type classes);
    a concrete implementation that follows the specification is given
    afterwards and used where a property is about the helpers themselves. *)

From Stdlib Require Import List String NArith ZArith Bool Lia.
From Stdlib Require Import Strings.Byte.
Import ListNotations.

Local Open Scope string_scope.

(** ** Status and StatusOr ([util/status.h], [util/statusor.h]) *)

Module error.
(** The canonical error codes other than OK. *)
Inductive Code : Set :=
| CANCELLED | UNKNOWN | INVALID_ARGUMENT | DEADLINE_EXCEEDED | NOT_FOUND
| ALREADY_EXISTS | PERMISSION_DENIED | RESOURCE_EXHAUSTED
| FAILED_PRECONDITION | ABORTED | OUT_OF_RANGE | UNIMPLEMENTED | INTERNAL
| UNAVAILABLE | DATA_LOSS | UNAUTHENTICATED.
End error.

(** A status is OK, or an error code with its message. *)
Inductive Status : Set :=
| OK
| Error (code : error.Code) (message : string).

Module Status.
Definition ok (s : Status) : bool :=
  match s with OK => true | Error _ _ => false end.
End Status.

(** [StatusOr<T>] holds a value, or the non-OK status that explains why
    there is none. *)
Inductive StatusOr (T : Type) : Type :=
| Value (v : T)
| Failure (code : error.Code) (message : string).

Arguments Value {T} v.
Arguments Failure {T} code message.

Module StatusOr.
Section Accessors.
Context {T : Type}.

Definition status (r : StatusOr T) : Status :=
  match r with Value _ => OK | Failure c m => Error c m end.

Definition ok (r : StatusOr T) : bool := Status.ok (status r).

(** The value held, when there is one ([ValueOrDie] aborts otherwise). *)
Definition value (r : StatusOr T) : option T :=
  match r with Value v => Some v | Failure _ _ => None end.
End Accessors.
End StatusOr.

(** ** The key protos ([proto/common.proto], [proto/rsa_ssa_pkcs1.proto]) *)

Module pb.
Inductive HashType : Set := UNKNOWN_HASH | SHA1 | SHA384 | SHA256 | SHA512.

Record RsaSsaPkcs1Params : Set := { hash_type : HashType }.

Record RsaSsaPkcs1PublicKey : Set := {
  version : N;               (* uint32 *)
  params : RsaSsaPkcs1Params;
  n : list byte;             (* modulus, big-endian *)
  e : list byte              (* public exponent, big-endian *)
}.

(** The generated setter of the modulus field. *)
Definition set_n (key : RsaSsaPkcs1PublicKey) (value : list byte)
  : RsaSsaPkcs1PublicKey :=
  {| version := version key; params := params key;
     n := value; e := e key |}.
End pb.

(** ** The types of the subtle layer ([subtle/subtle_util_boringssl.h]) *)

Module subtle.
Inductive HashType : Set := UNKNOWN_HASH | SHA1 | SHA384 | SHA256 | SHA512.

Record RsaPublicKey : Set := { n : list byte; e : list byte }.

Record RsaSsaPkcs1Params : Set := { hash_type : HashType }.

Definition HashType_eqb (a b : HashType) : bool :=
  match a, b with
  | UNKNOWN_HASH, UNKNOWN_HASH | SHA1, SHA1 | SHA384, SHA384
  | SHA256, SHA256 | SHA512, SHA512 => true
  | _, _ => false
  end.
End subtle.

(** A BoringSSL big number, and the number of bits of its magnitude. *)
Definition BIGNUM : Set := Z.

Definition BN_num_bits (a : BIGNUM) : N := N.size (Z.abs_N a).

(** ** What the manager takes from elsewhere *)

(** The header's constants and the validation helpers. *)
Class Externals : Type := {
  kKeyType : string;
  kVersion : N;
  ValidateVersion : N -> N -> Status;
  str2bn : list byte -> StatusOr BIGNUM;
  ValidateRsaModulusSize : N -> Status;
  ValidateSignatureHash : subtle.HashType -> Status;
  ProtoToSubtle : pb.HashType -> subtle.HashType
}.

(** The verifier objects and [RsaSsaPkcs1VerifyBoringSsl::New]. *)
Class Verifiers : Type := {
  PublicKeyVerify : Type;
  New : subtle.RsaPublicKey -> subtle.RsaSsaPkcs1Params ->
        StatusOr PublicKeyVerify
}.

(** ** RsaSsaPkcs1PublicKeyFactory *)

Inductive RsaSsaPkcs1PublicKeyFactory : Set := PublicKeyFactory.

Definition not_supported : string :=
  "Operation not supported for public keys, " ++
  "please use the RsaSsaPkcs1SignKeyManager.".

Section Factory.
Variables MessageLite KeyData : Type.

Definition NewKey (this : RsaSsaPkcs1PublicKeyFactory)
    (key_format : MessageLite) : StatusOr MessageLite :=
  Failure error.UNIMPLEMENTED not_supported.

Definition NewKey_serialized (this : RsaSsaPkcs1PublicKeyFactory)
    (serialized_key_format : list byte) : StatusOr MessageLite :=
  Failure error.UNIMPLEMENTED not_supported.

Definition NewKeyData (this : RsaSsaPkcs1PublicKeyFactory)
    (serialized_key_format : list byte) : StatusOr KeyData :=
  Failure error.UNIMPLEMENTED not_supported.
End Factory.

Arguments NewKey {MessageLite} this key_format.

(** ** RsaSsaPkcs1VerifyKeyManager *)

Record RsaSsaPkcs1VerifyKeyManager : Set := {
  key_type_ : string;
  key_factory_ : RsaSsaPkcs1PublicKeyFactory
}.

Section Manager.
Context `{X : Externals}.

(** The constructor. *)
Definition new_manager : RsaSsaPkcs1VerifyKeyManager :=
  {| key_type_ := kKeyType; key_factory_ := PublicKeyFactory |}.

Definition get_key_type (this : RsaSsaPkcs1VerifyKeyManager) : string :=
  key_type_ this.

Definition get_key_factory (this : RsaSsaPkcs1VerifyKeyManager)
  : RsaSsaPkcs1PublicKeyFactory := key_factory_ this.

Definition get_version (this : RsaSsaPkcs1VerifyKeyManager) : N := kVersion.

(** [Validate(const RsaSsaPkcs1Params&)], static. *)
Definition Validate_params (params : pb.RsaSsaPkcs1Params) : Status :=
  ValidateSignatureHash (ProtoToSubtle (pb.hash_type params)).

(** [Validate(const RsaSsaPkcs1PublicKey&)], static. *)
Definition Validate (key : pb.RsaSsaPkcs1PublicKey) : Status :=
  let status := ValidateVersion (pb.version key) kVersion in
  if negb (Status.ok status) then status else
  let status_or_n := str2bn (pb.n key) in
  match status_or_n with
  | Failure c m => Error c m
  | Value bn =>
      let modulus_status := ValidateRsaModulusSize (BN_num_bits bn) in
      if negb (Status.ok modulus_status) then modulus_status
      else Validate_params (pb.params key)
  end.

Context `{V : Verifiers}.

Definition GetPrimitiveFromKey (this : RsaSsaPkcs1VerifyKeyManager)
    (rsa_ssa_pkcs1_public_key : pb.RsaSsaPkcs1PublicKey)
  : StatusOr PublicKeyVerify :=
  match Validate rsa_ssa_pkcs1_public_key with
  | Error c m => Failure c m
  | OK =>
      let rsa_pub_key :=
        {| subtle.n := pb.n rsa_ssa_pkcs1_public_key;
           subtle.e := pb.e rsa_ssa_pkcs1_public_key |} in
      let rsa_ssa_pkcs1_params := pb.params rsa_ssa_pkcs1_public_key in
      let params :=
        {| subtle.hash_type :=
             ProtoToSubtle (pb.hash_type rsa_ssa_pkcs1_params) |} in
      let rsa_ssa_pkcs1_result := New rsa_pub_key params in
      match rsa_ssa_pkcs1_result with
      | Failure c m => Failure c m
      | Value rsa_ssa_pkcs1 => Value rsa_ssa_pkcs1
      end
  end.
End Manager.

(** ** The helpers, as the specification describes them *)

Module Spec.
(** Modelled from the spec: the policy configuration fixed at build time
    (section 5: version constant and modulus-size bounds, with a maximum
    only "if one is defined"), together with the key type string of the
    header, none of which is given a value by the sources. *)
Record Policy : Set := {
  key_type : string;
  version_constant : N;
  min_modulus_bits : N;
  max_modulus_bits : option N
}.

(** Modelled from the spec: the status of kind UnsupportedVersion that the
    absent [ValidateVersion] returns (section 7 names the kind only). *)
Definition UnsupportedVersion : Status :=
  Error error.INVALID_ARGUMENT "UnsupportedVersion".

(** Modelled from the spec: the status of kind InsecureModulusSize that
    the absent [ValidateRsaModulusSize] returns. *)
Definition InsecureModulusSize : Status :=
  Error error.INVALID_ARGUMENT "InsecureModulusSize".

(** Modelled from the spec: the names of the hash values, for the
    diagnostics. *)
Definition hash_name (h : subtle.HashType) : string :=
  match h with
  | subtle.UNKNOWN_HASH => "UNKNOWN_HASH"
  | subtle.SHA1 => "SHA1"
  | subtle.SHA384 => "SHA384"
  | subtle.SHA256 => "SHA256"
  | subtle.SHA512 => "SHA512"
  end.

(** Modelled from the spec: the status of kind UnsupportedHash that the
    absent [ValidateSignatureHash] returns, "naming the offending value"
    (section 4.1). *)
Definition UnsupportedHash (h : subtle.HashType) : Status :=
  Error error.INVALID_ARGUMENT ("UnsupportedHash: " ++ hash_name h).

(** Modelled from the spec: [ValidateVersion] of util/validation, absent
    from the sources; section 4.2 step 1: the version must equal the
    supported one, "else UnsupportedVersion". *)
Definition ValidateVersion (candidate expected : N) : Status :=
  if (candidate =? expected)%N then OK else UnsupportedVersion.

(** Modelled from the spec: the unsigned big-endian number that a byte
    string writes (section 3: "byte sequence (big-endian, unsigned)"). *)
Definition bin2bn (s : list byte) : BIGNUM :=
  fold_left (fun acc b => (acc * 256 + Z.of_N (Byte.to_N b))%Z) s 0%Z.

(** Modelled from the spec: [SubtleUtilBoringSSL::str2bn], absent from the
    sources; section 3 and section 4.2 step 2: the modulus bytes are read
    as an unsigned big-endian integer.  Every byte string is such an
    encoding, so this reading never reports a malformed modulus. *)
Definition str2bn (s : list byte) : StatusOr BIGNUM := Value (bin2bn s).

(** Modelled from the spec: [ValidateRsaModulusSize], absent from the
    sources; section 4.2 step 3: the bit length must lie within the
    accepted range, otherwise InsecureModulusSize. *)
Definition ValidateRsaModulusSize (p : Policy) (modulus_size : N) : Status :=
  if (min_modulus_bits p <=? modulus_size)%N
     && match max_modulus_bits p with
        | Some hi => (modulus_size <=? hi)%N
        | None => true
        end
  then OK else InsecureModulusSize.

(** Modelled from the spec: the approved hash set, a fixed allow-list
    (section 3: SHA-256, SHA-384, SHA-512; weak or unspecified hashes are
    rejected). *)
Definition approved_hashes : list subtle.HashType :=
  [subtle.SHA256; subtle.SHA384; subtle.SHA512].

(** Modelled from the spec: membership in the approved set. *)
Definition approved (h : subtle.HashType) : bool :=
  existsb (subtle.HashType_eqb h) approved_hashes.

(** Modelled from the spec: [ValidateSignatureHash], absent from the
    sources; section 4.1: success exactly on the approved set, otherwise
    UnsupportedHash naming the value. *)
Definition ValidateSignatureHash (h : subtle.HashType) : Status :=
  if approved h then OK else UnsupportedHash h.

(** Modelled from the spec: [Enums::ProtoToSubtle], absent from the
    sources; the specification has one hash enumeration, so each proto
    value goes to the subtle value of the same name. *)
Definition ProtoToSubtle (h : pb.HashType) : subtle.HashType :=
  match h with
  | pb.UNKNOWN_HASH => subtle.UNKNOWN_HASH
  | pb.SHA1 => subtle.SHA1
  | pb.SHA384 => subtle.SHA384
  | pb.SHA256 => subtle.SHA256
  | pb.SHA512 => subtle.SHA512
  end.

(** Modelled from the spec: the constants and helpers above, gathered for
    the manager (in the order of the fields of [Externals]). *)
Definition externals (p : Policy) : Externals :=
  Build_Externals (key_type p) (version_constant p) ValidateVersion str2bn
    (ValidateRsaModulusSize p) ValidateSignatureHash ProtoToSubtle.

(** Modelled from the spec: a stand-in for the cryptography provider
    behind [RsaSsaPkcs1VerifyBoringSsl::New], absent from the sources;
    section 4.3 gives as its example of a failure that the provider
    "rejects the exponent as degenerate".  The verifier it builds records
    the key and the hash it was built from. *)
Definition verifiers : Verifiers := {|
  PublicKeyVerify := subtle.RsaPublicKey * subtle.RsaSsaPkcs1Params;
  New := fun key params =>
    if (bin2bn (subtle.e key) <=? 1)%Z
    then Failure error.INTERNAL "degenerate public exponent"
    else Value (key, params)
|}.
End Spec.

(** Helpers whose [str2bn] reads every byte string as the unsigned
    big-endian number it writes, as BoringSSL's [BN_bin2bn] does. *)
Definition reads_big_endian `{X : Externals} : Prop :=
  forall s, str2bn s = Value (Spec.bin2bn s).

(** ** The concrete scenario of the specification (section 8, item 6) *)

Module Scenario.
Definition policy : Spec.Policy := {|
  Spec.key_type :=
    "type.googleapis.com/google.crypto.tink.RsaSsaPkcs1PublicKey";
  Spec.version_constant := 0;
  Spec.min_modulus_bits := 2048;
  Spec.max_modulus_bits := None
|}.

Definition X : Externals := Spec.externals policy.
Definition V : Verifiers := Spec.verifiers.

Definition manager : RsaSsaPkcs1VerifyKeyManager := new_manager (X := X).

Definition F4 : list byte := [x01; x00; x01].   (* 65537 *)

Definition key (v : N) (bits_div_8 : nat) (h : pb.HashType)
  : pb.RsaSsaPkcs1PublicKey := {|
  pb.version := v;
  pb.params := {| pb.hash_type := h |};
  pb.n := repeat xff bits_div_8;
  pb.e := F4
|}.

Definition good_key := key 0 256 pb.SHA256.
Definition sha1_key := key 0 256 pb.SHA1.
Definition short_key := key 0 128 pb.SHA256.
Definition future_key := key 1 256 pb.SHA256.
(** A key that validates and whose exponent the provider refuses. *)
Definition degenerate_key : pb.RsaSsaPkcs1PublicKey := {|
  pb.version := 0;
  pb.params := {| pb.hash_type := pb.SHA512 |};
  pb.n := repeat xff 256;
  pb.e := [x01]
|}.
End Scenario.

(** * Properties *)

(** ** The status algebra *)

Lemma Status_ok_true (s : Status) : Status.ok s = true <-> s = OK.
Proof. destruct s; simpl; split; congruence. Qed.

Lemma StatusOr_ok_value {T : Type} (r : StatusOr T) :
  StatusOr.ok r = true <-> exists v, StatusOr.value r = Some v.
Proof.
  destruct r as [v | c m]; unfold StatusOr.ok; simpl; split.
  - intros _. now exists v.
  - reflexivity.
  - discriminate.
  - intros [v Hv]. discriminate.
Qed.

Lemma StatusOr_error_no_value {T : Type} (r : StatusOr T) c m :
  StatusOr.status r = Error c m -> StatusOr.value r = None.
Proof. destruct r; simpl; [discriminate | reflexivity]. Qed.

(** ** The validator, path by path *)

Section ValidateFacts.
Context `{X : Externals}.

Implicit Types key : pb.RsaSsaPkcs1PublicKey.

Lemma Validate_version_failure key c m :
  ValidateVersion (pb.version key) kVersion = Error c m ->
  Validate key = Error c m.
Proof. unfold Validate. intros ->. reflexivity. Qed.

Lemma Validate_parse_failure key c m :
  ValidateVersion (pb.version key) kVersion = OK ->
  str2bn (pb.n key) = Failure c m ->
  Validate key = Error c m.
Proof. unfold Validate. intros -> ->. reflexivity. Qed.

Lemma Validate_size_failure key bn c m :
  ValidateVersion (pb.version key) kVersion = OK ->
  str2bn (pb.n key) = Value bn ->
  ValidateRsaModulusSize (BN_num_bits bn) = Error c m ->
  Validate key = Error c m.
Proof. unfold Validate. intros -> -> ->. reflexivity. Qed.

Lemma Validate_reaches_params key bn :
  ValidateVersion (pb.version key) kVersion = OK ->
  str2bn (pb.n key) = Value bn ->
  ValidateRsaModulusSize (BN_num_bits bn) = OK ->
  Validate key = Validate_params (pb.params key).
Proof. unfold Validate. intros -> -> ->. reflexivity. Qed.

(** [Validate] reads the version, the modulus and the parameters of the
    key, and nothing else. *)
Lemma Validate_reads key1 key2 :
  pb.version key1 = pb.version key2 ->
  pb.n key1 = pb.n key2 ->
  pb.params key1 = pb.params key2 ->
  Validate key1 = Validate key2.
Proof. unfold Validate. intros -> -> ->. reflexivity. Qed.
End ValidateFacts.

Section FactoryFacts.
Context `{X : Externals} `{V : Verifiers}.

Lemma GetPrimitiveFromKey_invalid this key c m :
  Validate key = Error c m ->
  GetPrimitiveFromKey this key = Failure c m.
Proof. unfold GetPrimitiveFromKey. intros ->. reflexivity. Qed.

Lemma GetPrimitiveFromKey_valid this key :
  Validate key = OK ->
  GetPrimitiveFromKey this key =
  New {| subtle.n := pb.n key; subtle.e := pb.e key |}
      {| subtle.hash_type := ProtoToSubtle (pb.hash_type (pb.params key)) |}.
Proof.
  unfold GetPrimitiveFromKey. intros ->. cbv zeta.
  now destruct (New _ _).
Qed.

Lemma GetPrimitiveFromKey_value this key v :
  GetPrimitiveFromKey this key = Value v -> Validate key = OK.
Proof.
  unfold GetPrimitiveFromKey.
  destruct (Validate key); [reflexivity | discriminate].
Qed.
End FactoryFacts.

(** ** The primitive factory *)

(** C1: [GetPrimitiveFromKey] runs the whole key validation first.  When
    validation fails, the call returns exactly the status of the validation
    and holds no primitive, whatever the provider behind [New] would have
    done; a primitive comes out only of a key that validated; and the call
    holds a primitive if and only if it reports success, so that no call
    yields an error together with a primitive. *)
Theorem GetPrimitiveFromKey_validates_first
    (X : Externals) (V : Verifiers)
    (this : RsaSsaPkcs1VerifyKeyManager) (key : pb.RsaSsaPkcs1PublicKey) :
  let r := GetPrimitiveFromKey this key in
  (forall c m, Validate key = Error c m ->
     r = Failure c m /\ StatusOr.value r = None)
  /\ (forall v, StatusOr.value r = Some v -> Validate key = OK)
  /\ (StatusOr.ok r = true <-> exists v, StatusOr.value r = Some v)
  /\ (forall c m, StatusOr.status r = Error c m -> StatusOr.value r = None).
Proof.
  intros r. repeat split.
  - subst r. now apply GetPrimitiveFromKey_invalid.
  - subst r. now rewrite (GetPrimitiveFromKey_invalid this key c m).
  - intros v Hv. subst r.
    destruct (GetPrimitiveFromKey this key) as [v' | c m] eqn:Hr;
      [| discriminate].
    now apply (GetPrimitiveFromKey_value this key v').
  - apply StatusOr_ok_value.
  - apply StatusOr_ok_value.
  - apply StatusOr_error_no_value.
Qed.

(** C7: when the key validates and the provider behind [New] refuses to
    build the verifier, [GetPrimitiveFromKey] returns the provider's own
    status, code and diagnostic unchanged, and holds no primitive. *)
Theorem GetPrimitiveFromKey_construction_failure
    (X : Externals) (V : Verifiers)
    (this : RsaSsaPkcs1VerifyKeyManager) (key : pb.RsaSsaPkcs1PublicKey)
    (c : error.Code) (m : string) :
  Validate key = OK ->
  New {| subtle.n := pb.n key; subtle.e := pb.e key |}
      {| subtle.hash_type := ProtoToSubtle (pb.hash_type (pb.params key)) |}
    = Failure c m ->
  GetPrimitiveFromKey this key = Failure c m
  /\ StatusOr.value (GetPrimitiveFromKey this key) = None.
Proof.
  intros Hvalid Hnew.
  rewrite (GetPrimitiveFromKey_valid this key Hvalid), Hnew.
  split; reflexivity.
Qed.

(** ** The key-creation entry points *)

(** C2: each of [NewKey] on a parsed format, [NewKey] on a serialized
    format and [NewKeyData] returns, for every input, the UNIMPLEMENTED
    status (the "unsupported operation" of the specification) and holds
    neither a key nor key data. *)
Theorem creation_always_unimplemented
    (MessageLite KeyData : Type) (this : RsaSsaPkcs1PublicKeyFactory)
    (key_format : MessageLite) (serialized_key_format : list byte) :
  (NewKey this key_format = Failure error.UNIMPLEMENTED not_supported
   /\ StatusOr.value (NewKey this key_format) = None)
  /\ (NewKey_serialized MessageLite this serialized_key_format
        = Failure error.UNIMPLEMENTED not_supported
      /\ StatusOr.value
           (NewKey_serialized MessageLite this serialized_key_format) = None)
  /\ (NewKeyData KeyData this serialized_key_format
        = Failure error.UNIMPLEMENTED not_supported
      /\ StatusOr.value
           (NewKeyData KeyData this serialized_key_format) = None).
Proof. repeat split. Qed.

(** C9: the creation entry points behave alike: whatever their inputs,
    the two forms of [NewKey] and [NewKeyData] return one and the same
    status, that is the same error code and the same message. *)
Theorem creation_variants_agree
    (MessageLite KeyData : Type) (this this' this'' : RsaSsaPkcs1PublicKeyFactory)
    (key_format : MessageLite) (serialized serialized' : list byte) :
  StatusOr.status (NewKey this key_format)
    = StatusOr.status (NewKeyData KeyData this'' serialized')
  /\ StatusOr.status (NewKey_serialized MessageLite this' serialized)
    = StatusOr.status (NewKeyData KeyData this'' serialized')
  /\ StatusOr.ok (NewKeyData KeyData this'' serialized') = false.
Proof. repeat split. Qed.

(** ** The public key validator *)

(** C5: [Validate] checks the version, then parses the modulus, then checks
    its size, then validates the parameters, and returns at the first
    failure.  A version that is refused decides the result alone (any key
    with that version gets the same status); a parse failure is returned
    when the version passed; a size failure when the modulus parsed; and
    when all three passed the result is that of the parameter validation,
    unchanged. *)
Theorem Validate_check_order (X : Externals) (key : pb.RsaSsaPkcs1PublicKey) :
  (forall c m,
      ValidateVersion (pb.version key) kVersion = Error c m ->
      Validate key = Error c m
      /\ forall key', pb.version key' = pb.version key ->
                      Validate key' = Error c m)
  /\ (ValidateVersion (pb.version key) kVersion = OK ->
      forall c m, str2bn (pb.n key) = Failure c m ->
                  Validate key = Error c m)
  /\ (ValidateVersion (pb.version key) kVersion = OK ->
      forall bn, str2bn (pb.n key) = Value bn ->
      forall c m, ValidateRsaModulusSize (BN_num_bits bn) = Error c m ->
                  Validate key = Error c m)
  /\ (ValidateVersion (pb.version key) kVersion = OK ->
      forall bn, str2bn (pb.n key) = Value bn ->
      ValidateRsaModulusSize (BN_num_bits bn) = OK ->
      Validate key = Validate_params (pb.params key)).
Proof.
  split; [| split; [| split]].
  - intros c m Hv. split.
    + now apply Validate_version_failure.
    + intros key' Hsame. apply Validate_version_failure.
      now rewrite Hsame.
  - intros Hv c m Hn. now apply Validate_parse_failure.
  - intros Hv bn Hn c m Hs. now apply Validate_size_failure with bn.
  - intros Hv bn Hn Hs. now apply Validate_reaches_params with bn.
Qed.

(** C8: [Validate] never looks at the public exponent: two keys that
    differ in the exponent only get the same result, so no exponent makes
    a key fail that validates with another one. *)
Theorem Validate_ignores_exponent
    (X : Externals) (v : N) (p : pb.RsaSsaPkcs1Params)
    (modulus e1 e2 : list byte) :
  Validate {| pb.version := v; pb.params := p; pb.n := modulus; pb.e := e1 |}
  = Validate {| pb.version := v; pb.params := p; pb.n := modulus; pb.e := e2 |}
  /\ (Validate
        {| pb.version := v; pb.params := p; pb.n := modulus; pb.e := e1 |} = OK ->
      Validate
        {| pb.version := v; pb.params := p; pb.n := modulus; pb.e := e2 |} = OK).
Proof.
  assert (Validate
            {| pb.version := v; pb.params := p; pb.n := modulus; pb.e := e1 |}
          = Validate
              {| pb.version := v; pb.params := p; pb.n := modulus; pb.e := e2 |})
    as Heq by (apply Validate_reads; reflexivity).
  split; [exact Heq | now rewrite Heq].
Qed.

(** ** The helpers of the specification *)

Lemma bin2bn_app (s t : list byte) :
  Spec.bin2bn (s ++ t)
  = fold_left (fun acc b => (acc * 256 + Z.of_N (Byte.to_N b))%Z) t
      (Spec.bin2bn s).
Proof. unfold Spec.bin2bn. apply fold_left_app. Qed.

Lemma bin2bn_zeros (k : nat) : Spec.bin2bn (repeat x00 k) = 0%Z.
Proof.
  unfold Spec.bin2bn. induction k as [| k IH]; simpl; [reflexivity | exact IH].
Qed.

Lemma bin2bn_leading_zeros (k : nat) (s : list byte) :
  Spec.bin2bn (repeat x00 k ++ s) = Spec.bin2bn s.
Proof. rewrite bin2bn_app, bin2bn_zeros. reflexivity. Qed.

Lemma approved_In (h : subtle.HashType) :
  Spec.approved h = true <-> In h Spec.approved_hashes.
Proof.
  destruct h; vm_compute; split; intros H;
    try discriminate; try reflexivity;
    intuition discriminate.
Qed.

(** Any helpers whose [str2bn] reads the modulus as a big-endian number make
    [Validate] blind to leading zero bytes. *)
Lemma Validate_leading_zeros `{X : Externals}
    (key : pb.RsaSsaPkcs1PublicKey) (k : nat) :
  (forall s, str2bn s = Value (Spec.bin2bn s)) ->
  Validate (pb.set_n key (repeat x00 k ++ pb.n key)) = Validate key.
Proof.
  intros Hdec. unfold Validate. simpl.
  rewrite !Hdec, bin2bn_leading_zeros. reflexivity.
Qed.

(** C3: with the version check of the specification, every key whose
    version is not the supported one is refused with UnsupportedVersion,
    whatever its modulus, exponent and hash. *)
Theorem Validate_version_gate
    (p : Spec.Policy) (key : pb.RsaSsaPkcs1PublicKey) :
  pb.version key <> Spec.version_constant p ->
  Validate (X := Spec.externals p) key = Spec.UnsupportedVersion.
Proof.
  intros Hne. unfold Validate. simpl. unfold Spec.ValidateVersion.
  destruct (N.eqb_spec (pb.version key) (Spec.version_constant p)) as [He | _];
    [contradiction | reflexivity].
Qed.

(** C4: with the hash check of the specification, the validation of the
    parameters succeeds exactly when the hash is in the approved set; every
    other hash, the unspecified one included, is refused with
    UnsupportedHash naming that hash. *)
Theorem Validate_params_allow_list
    (p : Spec.Policy) (params : pb.RsaSsaPkcs1Params) :
  let h := Spec.ProtoToSubtle (pb.hash_type params) in
  (Validate_params (X := Spec.externals p) params = OK
   <-> In h Spec.approved_hashes)
  /\ (~ In h Spec.approved_hashes ->
      Validate_params (X := Spec.externals p) params = Spec.UnsupportedHash h)
  /\ Validate_params (X := Spec.externals p)
       {| pb.hash_type := pb.UNKNOWN_HASH |}
     = Spec.UnsupportedHash subtle.UNKNOWN_HASH.
Proof.
  intros h. unfold Validate_params. simpl. fold h.
  unfold Spec.ValidateSignatureHash.
  pose proof (approved_In h) as Hin.
  destruct (Spec.approved h) eqn:Ha.
  - repeat split; try reflexivity.
    + intros _. now apply Hin.
    + intros Hout. exfalso. apply Hout. now apply Hin.
  - repeat split; try reflexivity.
    + discriminate.
    + intros Hh. apply Hin in Hh. discriminate.
Qed.

(** C6: with the modulus read as a big-endian number, the size check sees
    the bit length of that number and not the length of the byte string:
    putting any number of zero bytes in front of the modulus of a key
    leaves the result of [Validate] as it was. *)
Theorem Validate_blind_to_leading_zeros
    (p : Spec.Policy) (key : pb.RsaSsaPkcs1PublicKey) (k : nat) :
  Validate (X := Spec.externals p) (pb.set_n key (repeat x00 k ++ pb.n key))
  = Validate (X := Spec.externals p) key.
Proof. apply Validate_leading_zeros. reflexivity. Qed.

(** ** The concrete scenario (section 8, item 6) *)

Example scenario_good_key :
  GetPrimitiveFromKey (X := Scenario.X) (V := Scenario.V)
    Scenario.manager Scenario.good_key
  = Value ({| subtle.n := repeat xff 256; subtle.e := Scenario.F4 |},
           {| subtle.hash_type := subtle.SHA256 |}).
Proof. vm_compute. reflexivity. Qed.

Example scenario_sha1 :
  GetPrimitiveFromKey (X := Scenario.X) (V := Scenario.V)
    Scenario.manager Scenario.sha1_key
  = Failure error.INVALID_ARGUMENT "UnsupportedHash: SHA1".
Proof. vm_compute. reflexivity. Qed.

Example scenario_1024_bits :
  BN_num_bits (Spec.bin2bn (pb.n Scenario.short_key)) = 1024%N
  /\ Validate (X := Scenario.X) Scenario.short_key = Spec.InsecureModulusSize.
Proof. split; vm_compute; reflexivity. Qed.

Example scenario_version_1 :
  Validate (X := Scenario.X) Scenario.future_key = Spec.UnsupportedVersion.
Proof. vm_compute. reflexivity. Qed.

(** A modulus of 256 bytes whose upper half is zero is a 1024-bit number and
    is refused, although its byte string is as long as that of a 2048-bit
    modulus. *)
Example scenario_padded_short_modulus :
  let key := pb.set_n Scenario.good_key (repeat x00 128 ++ repeat xff 128) in
  List.length (pb.n key) = List.length (pb.n Scenario.good_key)
  /\ Validate (X := Scenario.X) key = Spec.InsecureModulusSize.
Proof. split; vm_compute; reflexivity. Qed.

(** ** The theorems at concrete inputs *)

Lemma GetPrimitiveFromKey_validates_first_witness :
  GetPrimitiveFromKey (X := Scenario.X) (V := Scenario.V)
    Scenario.manager Scenario.future_key
  = Failure error.INVALID_ARGUMENT "UnsupportedVersion"
  /\ StatusOr.value
       (GetPrimitiveFromKey (X := Scenario.X) (V := Scenario.V)
          Scenario.manager Scenario.future_key) = None.
Proof.
  apply (proj1 (GetPrimitiveFromKey_validates_first Scenario.X Scenario.V
                  Scenario.manager Scenario.future_key)).
  vm_compute. reflexivity.
Defined.

Lemma GetPrimitiveFromKey_construction_failure_witness :
  GetPrimitiveFromKey (X := Scenario.X) (V := Scenario.V)
    Scenario.manager Scenario.degenerate_key
  = Failure error.INTERNAL "degenerate public exponent"
  /\ StatusOr.value
       (GetPrimitiveFromKey (X := Scenario.X) (V := Scenario.V)
          Scenario.manager Scenario.degenerate_key) = None.
Proof.
  apply (GetPrimitiveFromKey_construction_failure Scenario.X Scenario.V).
  - vm_compute. reflexivity.
  - vm_compute. reflexivity.
Defined.

Lemma Validate_check_order_witness :
  Validate (X := Scenario.X) Scenario.future_key = Spec.UnsupportedVersion
  /\ Validate (X := Scenario.X) Scenario.short_key = Spec.InsecureModulusSize
  /\ Validate (X := Scenario.X) Scenario.sha1_key
     = Validate_params (X := Scenario.X) (pb.params Scenario.sha1_key).
Proof.
  split; [| split].
  - refine (proj1 (proj1 (Validate_check_order Scenario.X Scenario.future_key)
                     error.INVALID_ARGUMENT "UnsupportedVersion" _)).
    vm_compute. reflexivity.
  - apply (proj1 (proj2 (proj2
             (Validate_check_order Scenario.X Scenario.short_key))))
      with (bn := Spec.bin2bn (pb.n Scenario.short_key)).
    + vm_compute. reflexivity.
    + reflexivity.
    + vm_compute. reflexivity.
  - apply (proj2 (proj2 (proj2
             (Validate_check_order Scenario.X Scenario.sha1_key))))
      with (bn := Spec.bin2bn (pb.n Scenario.sha1_key)).
    + vm_compute. reflexivity.
    + reflexivity.
    + vm_compute. reflexivity.
Defined.

Lemma Validate_ignores_exponent_witness :
  Validate (X := Scenario.X) Scenario.good_key = OK
  /\ Validate (X := Scenario.X)
       {| pb.version := 0; pb.params := {| pb.hash_type := pb.SHA256 |};
          pb.n := repeat xff 256; pb.e := [] |} = OK.
Proof.
  assert (Validate (X := Scenario.X) Scenario.good_key = OK) as Hgood
    by (vm_compute; reflexivity).
  split; [exact Hgood |].
  exact (proj2 (Validate_ignores_exponent Scenario.X 0
                  {| pb.hash_type := pb.SHA256 |} (repeat xff 256)
                  Scenario.F4 []) Hgood).
Defined.

Lemma Validate_version_gate_witness :
  pb.version Scenario.future_key <> Spec.version_constant Scenario.policy
  /\ Validate (X := Scenario.X) Scenario.future_key = Spec.UnsupportedVersion.
Proof.
  assert (pb.version Scenario.future_key
          <> Spec.version_constant Scenario.policy) as Hne
    by (simpl; discriminate).
  split; [exact Hne |].
  exact (Validate_version_gate Scenario.policy Scenario.future_key Hne).
Defined.

Lemma Validate_params_allow_list_witness :
  Validate_params (X := Scenario.X) {| pb.hash_type := pb.SHA1 |}
  = Spec.UnsupportedHash subtle.SHA1
  /\ Validate_params (X := Scenario.X) {| pb.hash_type := pb.SHA384 |} = OK.
Proof.
  split.
  - apply (proj1 (proj2 (Validate_params_allow_list Scenario.policy
                           {| pb.hash_type := pb.SHA1 |}))).
    simpl. intuition discriminate.
  - apply (proj1 (Validate_params_allow_list Scenario.policy
                    {| pb.hash_type := pb.SHA384 |})).
    simpl. right. left. reflexivity.
Defined.


(** * Further properties of the manager *)

(** ** What a successful validation means, and where a failure comes from *)

(** The cases of [Validate], one per helper call. *)
Ltac validate_cases key :=
  unfold Validate;
  destruct (ValidateVersion (pb.version key) kVersion) as [| vc vm] eqn:Hversion;
  simpl;
  [ destruct (str2bn (pb.n key)) as [bn | pc pm] eqn:Hparse;
    [ destruct (ValidateRsaModulusSize (BN_num_bits bn)) as [| sc sm] eqn:Hsize;
      simpl | ] | ].

Lemma Validate_ok_checks `{X : Externals} (key : pb.RsaSsaPkcs1PublicKey) :
  Validate key = OK ->
  ValidateVersion (pb.version key) kVersion = OK
  /\ (exists bn, str2bn (pb.n key) = Value bn
                 /\ ValidateRsaModulusSize (BN_num_bits bn) = OK)
  /\ Validate_params (pb.params key) = OK.
Proof.
  validate_cases key; intros Hr; try discriminate.
  repeat split; [| exact Hr]. exists bn. split; congruence.
Qed.

Lemma Validate_checks_ok `{X : Externals} (key : pb.RsaSsaPkcs1PublicKey) bn :
  ValidateVersion (pb.version key) kVersion = OK ->
  str2bn (pb.n key) = Value bn ->
  ValidateRsaModulusSize (BN_num_bits bn) = OK ->
  Validate_params (pb.params key) = OK ->
  Validate key = OK.
Proof.
  intros Hv Hn Hs Hp. now rewrite (Validate_reaches_params key bn Hv Hn Hs).
Qed.

(** X1: a key validates exactly when all four checks pass: the version is
    accepted, the modulus parses, the bit length of the parsed number is
    accepted, and the parameters validate. *)
Theorem Validate_ok_iff (X : Externals) (key : pb.RsaSsaPkcs1PublicKey) :
  Validate key = OK <->
  ValidateVersion (pb.version key) kVersion = OK
  /\ (exists bn, str2bn (pb.n key) = Value bn
                 /\ ValidateRsaModulusSize (BN_num_bits bn) = OK)
  /\ Validate_params (pb.params key) = OK.
Proof.
  split.
  - apply Validate_ok_checks.
  - intros (Hv & (bn & Hn & Hs) & Hp). now apply Validate_checks_ok with bn.
Qed.

(** X2: [Validate] makes up no error of its own: a failure it returns is,
    code and message, the failure of the version check, or of the parse of
    the modulus, or of the size check, or of the parameter validation, each
    one reached only when the checks before it passed. *)
Theorem Validate_error_provenance
    (X : Externals) (key : pb.RsaSsaPkcs1PublicKey)
    (c : error.Code) (m : string) :
  Validate key = Error c m ->
  ValidateVersion (pb.version key) kVersion = Error c m
  \/ (ValidateVersion (pb.version key) kVersion = OK
      /\ str2bn (pb.n key) = Failure c m)
  \/ (ValidateVersion (pb.version key) kVersion = OK
      /\ exists bn, str2bn (pb.n key) = Value bn
                    /\ ValidateRsaModulusSize (BN_num_bits bn) = Error c m)
  \/ (ValidateVersion (pb.version key) kVersion = OK
      /\ exists bn, str2bn (pb.n key) = Value bn
                    /\ ValidateRsaModulusSize (BN_num_bits bn) = OK
                    /\ Validate_params (pb.params key) = Error c m).
Proof.
  validate_cases key; intros Hr.
  - right; right; right. split; [reflexivity |].
    exists bn. repeat split; congruence.
  - right; right; left. split; [reflexivity |].
    exists bn. split; congruence.
  - right; left. split; [reflexivity |]. congruence.
  - left. exact Hr.
Qed.

(** X3: [GetPrimitiveFromKey] returns the primitive [v] exactly when the
    version, the modulus and the hash of the key pass their checks and [New]
    builds [v] from the modulus and exponent bytes of the key as they are
    and from the very hash value that was validated. *)
Theorem GetPrimitiveFromKey_value_iff
    (X : Externals) (V : Verifiers)
    (this : RsaSsaPkcs1VerifyKeyManager) (key : pb.RsaSsaPkcs1PublicKey)
    (v : PublicKeyVerify) :
  GetPrimitiveFromKey this key = Value v <->
  ValidateVersion (pb.version key) kVersion = OK
  /\ (exists bn, str2bn (pb.n key) = Value bn
                 /\ ValidateRsaModulusSize (BN_num_bits bn) = OK)
  /\ exists h, h = ProtoToSubtle (pb.hash_type (pb.params key))
               /\ ValidateSignatureHash h = OK
               /\ New {| subtle.n := pb.n key; subtle.e := pb.e key |}
                      {| subtle.hash_type := h |} = Value v.
Proof.
  split.
  - intros Hr.
    pose proof (GetPrimitiveFromKey_value this key v Hr) as Hvalid.
    rewrite (GetPrimitiveFromKey_valid this key Hvalid) in Hr.
    apply Validate_ok_checks in Hvalid. destruct Hvalid as (Hv & Hn & Hp).
    repeat split; [exact Hv | exact Hn |].
    eexists. repeat split; [exact Hp | exact Hr].
  - intros (Hv & (bn & Hn & Hs) & h & -> & Hh & Hnew).
    assert (Validate key = OK) as Hvalid
      by (now apply Validate_checks_ok with bn).
    rewrite (GetPrimitiveFromKey_valid this key Hvalid). exact Hnew.
Qed.

(** X4: [GetPrimitiveFromKey] makes up no error of its own either: it fails
    with a given status exactly when the validation of the key fails with
    that status, or the key validates and [New] fails with that status. *)
Theorem GetPrimitiveFromKey_error_provenance
    (X : Externals) (V : Verifiers)
    (this : RsaSsaPkcs1VerifyKeyManager) (key : pb.RsaSsaPkcs1PublicKey)
    (c : error.Code) (m : string) :
  GetPrimitiveFromKey this key = Failure c m <->
  Validate key = Error c m
  \/ (Validate key = OK
      /\ New {| subtle.n := pb.n key; subtle.e := pb.e key |}
             {| subtle.hash_type :=
                  ProtoToSubtle (pb.hash_type (pb.params key)) |}
         = Failure c m).
Proof.
  destruct (Validate key) as [| vc vm] eqn:Hvalid.
  - rewrite (GetPrimitiveFromKey_valid this key Hvalid). split.
    + intros Hnew. right. now split.
    + intros [Hbad | [_ Hnew]]; [discriminate | exact Hnew].
  - rewrite (GetPrimitiveFromKey_invalid this key vc vm Hvalid). split.
    + intros Hr. left. congruence.
    + intros [Hbad | [Hbad _]]; [congruence | discriminate].
Qed.

(** X5: the parameters are consulted last.  Two keys with the same version
    and the same modulus can get different results only when the version,
    the parse and the size check all passed, and then each key gets the
    result of the validation of its own parameters. *)
Theorem Validate_params_consulted_last
    (X : Externals) (key1 key2 : pb.RsaSsaPkcs1PublicKey) :
  pb.version key1 = pb.version key2 ->
  pb.n key1 = pb.n key2 ->
  Validate key1 <> Validate key2 ->
  ValidateVersion (pb.version key1) kVersion = OK
  /\ (exists bn, str2bn (pb.n key1) = Value bn
                 /\ ValidateRsaModulusSize (BN_num_bits bn) = OK)
  /\ Validate key1 = Validate_params (pb.params key1)
  /\ Validate key2 = Validate_params (pb.params key2).
Proof.
  intros Hver Hmod Hdiff.
  destruct (ValidateVersion (pb.version key1) kVersion) as [| vc vm] eqn:Hv.
  - destruct (str2bn (pb.n key1)) as [bn | pc pm] eqn:Hn.
    + destruct (ValidateRsaModulusSize (BN_num_bits bn)) as [| sc sm] eqn:Hs.
      * repeat split.
        -- exists bn. now split.
        -- now apply Validate_reaches_params with bn.
        -- apply Validate_reaches_params with bn; congruence.
      * exfalso. apply Hdiff.
        rewrite (Validate_size_failure key1 bn sc sm Hv Hn Hs).
        symmetry. apply Validate_size_failure with bn; congruence.
    + exfalso. apply Hdiff.
      rewrite (Validate_parse_failure key1 pc pm Hv Hn).
      symmetry. apply Validate_parse_failure; congruence.
  - exfalso. apply Hdiff.
    rewrite (Validate_version_failure key1 vc vm Hv).
    symmetry. apply Validate_version_failure. congruence.
Qed.

(** X6: no exponent rescues an invalid key: when a key fails validation,
    [GetPrimitiveFromKey] fails with that same status on every key that
    differs from it in the exponent only. *)
Theorem GetPrimitiveFromKey_exponent_cannot_rescue
    (X : Externals) (V : Verifiers)
    (this : RsaSsaPkcs1VerifyKeyManager) (key : pb.RsaSsaPkcs1PublicKey)
    (c : error.Code) (m : string) (e' : list byte) :
  Validate key = Error c m ->
  GetPrimitiveFromKey this
    {| pb.version := pb.version key; pb.params := pb.params key;
       pb.n := pb.n key; pb.e := e' |}
  = Failure c m.
Proof.
  intros Hbad. apply GetPrimitiveFromKey_invalid.
  rewrite <- Hbad. apply Validate_reads; reflexivity.
Qed.

(** ** The size that the modulus check sees *)

Lemma N2Z_log2 (n : N) : Z.of_N (N.log2 n) = Z.log2 (Z.of_N n).
Proof. destruct n as [| [p | p |]]; reflexivity. Qed.

Lemma BN_num_bits_log2 (a : BIGNUM) :
  a <> 0%Z -> Z.of_N (BN_num_bits a) = (Z.log2 (Z.abs a) + 1)%Z.
Proof.
  intros Ha. unfold BN_num_bits.
  assert (Z.abs_N a <> 0%N) as Hn by lia.
  rewrite (N.size_log2 _ Hn), N2Z.inj_succ, N2Z_log2, N2Z.inj_abs_N.
  lia.
Qed.

Lemma BN_num_bits_unique (a : BIGNUM) (k : Z) :
  (0 <= k)%Z -> (2 ^ k <= a < 2 ^ (k + 1))%Z ->
  Z.of_N (BN_num_bits a) = (k + 1)%Z.
Proof.
  intros Hk Ha.
  assert (0 < 2 ^ k)%Z by (apply Z.pow_pos_nonneg; lia).
  rewrite BN_num_bits_log2 by lia.
  rewrite Z.abs_eq by lia.
  rewrite (Z.log2_unique a k); [reflexivity | exact Hk |].
  unfold Z.succ. exact Ha.
Qed.

Lemma byte_range (b : byte) : (0 <= Z.of_N (Byte.to_N b) < 256)%Z.
Proof. pose proof (Byte.to_N_bounded b). lia. Qed.

Lemma bin2bn_snoc (s : list byte) (b : byte) :
  Spec.bin2bn (s ++ [b]) = (Spec.bin2bn s * 256 + Z.of_N (Byte.to_N b))%Z.
Proof. rewrite bin2bn_app. reflexivity. Qed.

Lemma bin2bn_range (s : list byte) :
  (0 <= Spec.bin2bn s < 256 ^ Z.of_nat (List.length s))%Z.
Proof.
  induction s as [| b s IH] using rev_ind.
  - vm_compute. split; [discriminate | reflexivity].
  - rewrite bin2bn_snoc, length_app, Nat2Z.inj_add. simpl List.length.
    rewrite Z.pow_add_r by lia. change (256 ^ Z.of_nat 1)%Z with 256%Z.
    pose proof (byte_range b). nia.
Qed.

Lemma bin2bn_cons (b : byte) (s : list byte) :
  Spec.bin2bn (b :: s)
  = (Z.of_N (Byte.to_N b) * 256 ^ Z.of_nat (List.length s)
     + Spec.bin2bn s)%Z.
Proof.
  induction s as [| x s IH] using rev_ind.
  - unfold Spec.bin2bn. simpl. lia.
  - rewrite app_comm_cons, !bin2bn_snoc, IH, length_app, Nat2Z.inj_add.
    simpl List.length. rewrite Z.pow_add_r by lia.
    change (256 ^ Z.of_nat 1)%Z with 256%Z. lia.
Qed.

Lemma pow_256 (l : nat) : (256 ^ Z.of_nat l = 2 ^ (8 * Z.of_nat l))%Z.
Proof. rewrite Z.pow_mul_r by lia. reflexivity. Qed.

(** The bit length of a number written with a non-zero leading byte. *)
Lemma BN_num_bits_cons (b : byte) (s : list byte) :
  b <> x00 ->
  BN_num_bits (Spec.bin2bn (b :: s))
  = (8 * N.of_nat (List.length s) + N.size (Byte.to_N b))%N.
Proof.
  intros Hb.
  assert (Byte.to_N b <> 0%N) as Hb0
    by (destruct b; solve [now contradiction Hb | discriminate]).
  apply N2Z.inj.
  rewrite N2Z.inj_add, N2Z.inj_mul, nat_N_Z.
  rewrite (N.size_log2 _ Hb0), N2Z.inj_succ, N2Z_log2.
  set (B := Z.of_N (Byte.to_N b)).
  assert (0 < B)%Z as HB by (subst B; lia).
  pose proof (Z.log2_spec B HB) as Hlog. unfold Z.succ in Hlog.
  pose proof (Z.log2_nonneg B) as Hlb.
  set (L := Z.of_nat (List.length s)).
  assert (0 <= L)%Z as HL by (subst L; lia).
  rewrite bin2bn_cons. fold B. fold L.
  pose proof (bin2bn_range s) as Hr. fold L in Hr.
  replace (Z.of_N 8 * L + Z.succ (Z.log2 B))%Z
    with ((8 * L + Z.log2 B) + 1)%Z by lia.
  apply BN_num_bits_unique; [lia |].
  replace (256 ^ L)%Z with (2 ^ (8 * L))%Z in * by (subst L; now rewrite pow_256).
  rewrite !Z.pow_add_r by lia.
  rewrite Z.pow_add_r in Hlog by lia.
  change (2 ^ 1)%Z with 2%Z in *.
  assert (0 < 2 ^ (8 * L))%Z as HP by (apply Z.pow_pos_nonneg; lia).
  set (P := (2 ^ (8 * L))%Z) in *. set (Q := (2 ^ Z.log2 B)%Z) in *.
  assert (Q * P <= B * P)%Z by (apply Z.mul_le_mono_nonneg_r; lia).
  assert (B * P <= (Q * 2 - 1) * P)%Z by (apply Z.mul_le_mono_nonneg_r; lia).
  split; lia.
Qed.

Lemma BN_num_bits_zeros (k : nat) :
  BN_num_bits (Spec.bin2bn (repeat x00 k)) = 0%N.
Proof. rewrite bin2bn_zeros. reflexivity. Qed.

(** No byte string writes a number of more bits than eight per byte. *)
Lemma BN_num_bits_bin2bn_le (s : list byte) :
  (BN_num_bits (Spec.bin2bn s) <= 8 * N.of_nat (List.length s))%N.
Proof.
  pose proof (bin2bn_range s) as Hr. rewrite pow_256 in Hr.
  destruct (Z.eq_dec (Spec.bin2bn s) 0%Z) as [-> | Hnz].
  - change (BN_num_bits 0%Z) with 0%N. lia.
  - pose proof (BN_num_bits_log2 _ Hnz) as Hbits.
    rewrite Z.abs_eq in Hbits by lia.
    assert (Z.log2 (Spec.bin2bn s) < 8 * Z.of_nat (List.length s))%Z
      by (apply Z.log2_lt_pow2; lia).
    lia.
Qed.

(** X7: [BN_num_bits] is the bit length of the magnitude: it is 0 for the
    number 0 only, it does not depend on the sign, and a non-zero number of
    [k] bits lies, in magnitude, between [2^(k-1)] and [2^k - 1]. *)
Theorem BN_num_bits_bounds (a : BIGNUM) :
  (BN_num_bits a = 0%N <-> a = 0%Z)
  /\ BN_num_bits (- a)%Z = BN_num_bits a
  /\ (a <> 0%Z ->
      (2 ^ (Z.of_N (BN_num_bits a) - 1) <= Z.abs a
       < 2 ^ Z.of_N (BN_num_bits a))%Z).
Proof.
  split; [| split].
  - split.
    + intros Hz. destruct (Z.eq_dec a 0%Z) as [Ha | Ha]; [exact Ha |].
      pose proof (BN_num_bits_log2 a Ha) as Hbits.
      pose proof (Z.log2_nonneg (Z.abs a)). rewrite Hz in Hbits. lia.
    + intros ->. reflexivity.
  - unfold BN_num_bits. now rewrite Zabs2N.inj_opp.
  - intros Ha. rewrite (BN_num_bits_log2 a Ha).
    replace (Z.log2 (Z.abs a) + 1 - 1)%Z with (Z.log2 (Z.abs a)) by lia.
    apply Z.log2_spec. lia.
Qed.

Section ModulusMeasure.
Context `{X : Externals}.

Lemma Validate_size_step (key : pb.RsaSsaPkcs1PublicKey) :
  reads_big_endian ->
  ValidateVersion (pb.version key) kVersion = OK ->
  Validate key
  = let st := ValidateRsaModulusSize (BN_num_bits (Spec.bin2bn (pb.n key))) in
    if Status.ok st then Validate_params (pb.params key) else st.
Proof.
  intros Hdec Hv. unfold Validate. rewrite Hv, Hdec. simpl.
  now destruct (ValidateRsaModulusSize _).
Qed.
End ModulusMeasure.

(** X8: when [str2bn] reads the modulus as an unsigned big-endian number
    and the version passes, the size that [Validate] hands to the size check
    is eight bits for every byte after the first non-zero byte, plus the bit
    length of that byte; zero bytes in front count for nothing.  The key is
    refused with the status of the size check at that size, or else gets
    the result of the validation of its parameters. *)
Theorem Validate_measures_modulus
    (X : Externals) (key : pb.RsaSsaPkcs1PublicKey)
    (k : nat) (b : byte) (s : list byte) :
  reads_big_endian ->
  ValidateVersion (pb.version key) kVersion = OK ->
  pb.n key = (repeat x00 k ++ b :: s)%list ->
  b <> x00 ->
  let bits := (8 * N.of_nat (List.length s) + N.size (Byte.to_N b))%N in
  BN_num_bits (Spec.bin2bn (pb.n key)) = bits
  /\ Validate key
     = if Status.ok (ValidateRsaModulusSize bits)
       then Validate_params (pb.params key)
       else ValidateRsaModulusSize bits.
Proof.
  intros Hdec Hv Hn Hb bits.
  assert (BN_num_bits (Spec.bin2bn (pb.n key)) = bits) as Hbits
    by (rewrite Hn, bin2bn_leading_zeros; now apply BN_num_bits_cons).
  split; [exact Hbits |].
  rewrite (Validate_size_step key Hdec Hv). cbv zeta. now rewrite Hbits.
Qed.

(** X9: when [str2bn] reads the modulus as an unsigned big-endian number
    and the size check refuses every size below [m] bits, a key whose
    modulus has fewer than [m] bits' worth of bytes never validates, whatever
    the bytes are: once the version passed it is refused with the status of
    the size check. *)
Theorem Validate_refuses_short_modulus
    (X : Externals) (key : pb.RsaSsaPkcs1PublicKey) (m : N) :
  reads_big_endian ->
  (forall size, (size < m)%N -> ValidateRsaModulusSize size <> OK) ->
  (8 * N.of_nat (List.length (pb.n key)) < m)%N ->
  Validate key <> OK
  /\ (ValidateVersion (pb.version key) kVersion = OK ->
      Validate key
      = ValidateRsaModulusSize (BN_num_bits (Spec.bin2bn (pb.n key)))).
Proof.
  intros Hdec Hmin Hlen.
  pose proof (BN_num_bits_bin2bn_le (pb.n key)) as Hle.
  assert (ValidateRsaModulusSize (BN_num_bits (Spec.bin2bn (pb.n key))) <> OK)
    as Hrefused by (apply Hmin; lia).
  split.
  - intros Hok. apply Validate_ok_checks in Hok.
    destruct Hok as (_ & (bn & Hbn & Hs) & _).
    rewrite Hdec in Hbn. injection Hbn as <-. contradiction.
  - intros Hv. rewrite (Validate_size_step key Hdec Hv). cbv zeta.
    destruct (ValidateRsaModulusSize _); [contradiction | reflexivity].
Qed.

(** X10: when [str2bn] reads the modulus as an unsigned big-endian number, a
    modulus made of zero bytes only, the empty modulus included, is measured
    as 0 bits: once the version passed, a size check that refuses 0 bits
    refuses the key with that status. *)
Theorem Validate_zero_modulus
    (X : Externals) (key : pb.RsaSsaPkcs1PublicKey) (k : nat)
    (c : error.Code) (m : string) :
  reads_big_endian ->
  ValidateVersion (pb.version key) kVersion = OK ->
  pb.n key = repeat x00 k ->
  ValidateRsaModulusSize 0 = Error c m ->
  Validate key = Error c m.
Proof.
  intros Hdec Hv Hn Hzero.
  rewrite (Validate_size_step key Hdec Hv), Hn, BN_num_bits_zeros. cbv zeta.
  now rewrite Hzero.
Qed.

(** ** The further properties at concrete inputs *)

Lemma scenario_reads_big_endian : reads_big_endian (X := Scenario.X).
Proof. intros s. reflexivity. Defined.

Lemma Validate_ok_iff_witness :
  Validate (X := Scenario.X) Scenario.good_key = OK.
Proof.
  apply (proj2 (Validate_ok_iff Scenario.X Scenario.good_key)).
  split; [vm_compute; reflexivity | split].
  - exists (Spec.bin2bn (pb.n Scenario.good_key)).
    split; [reflexivity | vm_compute; reflexivity].
  - vm_compute. reflexivity.
Defined.

Lemma Validate_error_provenance_witness :
  let key := Scenario.short_key in
  let c := error.INVALID_ARGUMENT in
  let m := "InsecureModulusSize" in
  ValidateVersion (Externals := Scenario.X) (pb.version key)
    (kVersion (Externals := Scenario.X)) = Error c m
  \/ (ValidateVersion (Externals := Scenario.X) (pb.version key)
        (kVersion (Externals := Scenario.X)) = OK
      /\ str2bn (Externals := Scenario.X) (pb.n key) = Failure c m)
  \/ (ValidateVersion (Externals := Scenario.X) (pb.version key)
        (kVersion (Externals := Scenario.X)) = OK
      /\ exists bn,
           str2bn (Externals := Scenario.X) (pb.n key) = Value bn
           /\ ValidateRsaModulusSize (Externals := Scenario.X)
                (BN_num_bits bn) = Error c m)
  \/ (ValidateVersion (Externals := Scenario.X) (pb.version key)
        (kVersion (Externals := Scenario.X)) = OK
      /\ exists bn,
           str2bn (Externals := Scenario.X) (pb.n key) = Value bn
           /\ ValidateRsaModulusSize (Externals := Scenario.X)
                (BN_num_bits bn) = OK
           /\ Validate_params (X := Scenario.X) (pb.params key) = Error c m).
Proof.
  intros key c m.
  apply (Validate_error_provenance Scenario.X key c m).
  vm_compute. reflexivity.
Defined.

Lemma GetPrimitiveFromKey_value_iff_witness :
  GetPrimitiveFromKey (X := Scenario.X) (V := Scenario.V)
    Scenario.manager Scenario.good_key
  = Value ({| subtle.n := repeat xff 256; subtle.e := Scenario.F4 |},
           {| subtle.hash_type := subtle.SHA256 |}).
Proof.
  apply (proj2 (GetPrimitiveFromKey_value_iff Scenario.X Scenario.V
                  Scenario.manager Scenario.good_key _)).
  split; [vm_compute; reflexivity | split].
  - exists (Spec.bin2bn (pb.n Scenario.good_key)).
    split; [reflexivity | vm_compute; reflexivity].
  - exists subtle.SHA256. repeat split; vm_compute; reflexivity.
Defined.

Lemma GetPrimitiveFromKey_error_provenance_witness :
  GetPrimitiveFromKey (X := Scenario.X) (V := Scenario.V)
    Scenario.manager Scenario.degenerate_key
  = Failure error.INTERNAL "degenerate public exponent".
Proof.
  apply (proj2 (GetPrimitiveFromKey_error_provenance Scenario.X Scenario.V
                  Scenario.manager Scenario.degenerate_key _ _)).
  right. split; vm_compute; reflexivity.
Defined.

Lemma Validate_params_consulted_last_witness :
  Validate (X := Scenario.X) Scenario.good_key
  = Validate_params (X := Scenario.X) (pb.params Scenario.good_key)
  /\ Validate (X := Scenario.X) Scenario.sha1_key
     = Validate_params (X := Scenario.X) (pb.params Scenario.sha1_key).
Proof.
  apply (Validate_params_consulted_last Scenario.X
           Scenario.good_key Scenario.sha1_key).
  - reflexivity.
  - reflexivity.
  - vm_compute. discriminate.
Defined.

Lemma GetPrimitiveFromKey_exponent_cannot_rescue_witness :
  GetPrimitiveFromKey (X := Scenario.X) (V := Scenario.V) Scenario.manager
    {| pb.version := 0; pb.params := {| pb.hash_type := pb.SHA1 |};
       pb.n := repeat xff 256; pb.e := [x03] |}
  = Failure error.INVALID_ARGUMENT "UnsupportedHash: SHA1".
Proof.
  apply (GetPrimitiveFromKey_exponent_cannot_rescue Scenario.X Scenario.V
           Scenario.manager Scenario.sha1_key).
  vm_compute. reflexivity.
Defined.

Lemma BN_num_bits_bounds_witness :
  (2 ^ (Z.of_N (BN_num_bits 65537) - 1) <= Z.abs 65537
   < 2 ^ Z.of_N (BN_num_bits 65537))%Z.
Proof.
  apply (proj2 (proj2 (BN_num_bits_bounds 65537%Z))). discriminate.
Defined.

Lemma Validate_measures_modulus_witness :
  let key := pb.set_n Scenario.good_key
               (repeat x00 3 ++ x7f :: repeat xff 255) in
  BN_num_bits (Spec.bin2bn (pb.n key)) = 2047%N
  /\ Validate (X := Scenario.X) key = Spec.InsecureModulusSize.
Proof.
  intros key.
  destruct (Validate_measures_modulus Scenario.X key 3 x7f (repeat xff 255))
    as [Hbits Hvalid].
  - exact scenario_reads_big_endian.
  - vm_compute. reflexivity.
  - reflexivity.
  - discriminate.
  - split; [exact Hbits |]. rewrite Hvalid. vm_compute. reflexivity.
Defined.

Lemma Validate_refuses_short_modulus_witness :
  Validate (X := Scenario.X) Scenario.short_key <> OK
  /\ Validate (X := Scenario.X) Scenario.short_key
     = Spec.InsecureModulusSize.
Proof.
  destruct (Validate_refuses_short_modulus Scenario.X Scenario.short_key 2048)
    as [Hno Hstatus].
  - exact scenario_reads_big_endian.
  - intros size Hsize. simpl. unfold Spec.ValidateRsaModulusSize. simpl.
    destruct (N.leb_spec 2048 size) as [Hle | _]; [lia | discriminate].
  - vm_compute. reflexivity.
  - split; [exact Hno |]. rewrite Hstatus; vm_compute; reflexivity.
Defined.

Lemma Validate_zero_modulus_witness :
  Validate (X := Scenario.X) (pb.set_n Scenario.good_key [])
  = Spec.InsecureModulusSize.
Proof.
  apply (Validate_zero_modulus Scenario.X
           (pb.set_n Scenario.good_key []) 0).
  - exact scenario_reads_big_endian.
  - vm_compute. reflexivity.
  - reflexivity.
  - vm_compute. reflexivity.
Defined.
